(** * Verification of the user authentication service

    Shallow embedding of [0x03-user_authentication_service/auth.py]
    (class [Auth]) and of the collaborators it calls: the [DB] class
    (users table), [bcrypt] and [uuid.uuid4]. *)

From stdpp Require Import base list strings.
From Stdlib Require Import ZArith Lia Ascii.

Local Open Scope string_scope.
Local Open Scope list_scope.
Local Open Scope Z_scope.

(** ** Python values used by the service *)

(** [bytes] objects; [str.encode()] of a Rocq [string] (a byte sequence)
    is the string itself. *)
Definition bytes := string.

Definition encode (s : string) : bytes := s.

(** Python's truth value of an [Optional[str]]: [None] and the empty
    string are falsy. *)
Definition truthy (v : option string) : bool :=
  match v with
  | None => false
  | Some s => negb (String.eqb s "")
  end.

(** Exceptions that can leave a method of [Auth]. *)
Inductive Exn :=
| ValueError (msg : string)
| NoResultFound
| TypeError (msg : string).

Inductive Outcome (A : Type) :=
| Return (a : A)
| Raise (e : Exn).
Arguments Return {A} a.
Arguments Raise {A} e.

(** ** The users table *)

(** One row of the users table, without its primary key. *)
Record Row := mkRow {
  row_email : string;
  row_hashed_password : bytes;
  row_session_id : option string;
  row_reset_token : option string }.

(** The [User] object handed out by the [DB] class. *)
Record User := mkUser {
  id : Z;
  email : string;
  hashed_password : bytes;
  session_id : option string;
  reset_token : option string }.

(** Keyword arguments of [DB.find_user_by]. *)
Inductive Criteria :=
| ByEmail (email : string)
| BySessionId (session_id : option string)
| ByResetToken (reset_token : string).

(** Keyword arguments of [DB.update_user]. *)
Inductive FieldUpdate :=
| SetSessionId (v : option string)
| SetResetToken (v : option string)
| SetHashedPassword (v : bytes).

(** What the service did to its collaborators, oldest event first. *)
Inductive Event :=
| DbFind (c : Criteria)
| DbAdd (email : string) (hashed_password : bytes)
| DbUpdate (user_id : Z) (kwargs : list FieldUpdate)
| Hashpw (password : bytes).

(** The state the methods of [Auth] run in: the users table behind
    [self._db] (row [i] has primary key [i + 1]; nothing is ever deleted),
    the operating system's random source (the values of the successive
    [os.urandom(16)] calls, and how many were drawn), and the log of
    collaborator calls. *)
Record World := mkWorld {
  users : list Row;
  entropy : nat -> Z;
  drawn : nat;
  log : list Event }.

Definition set_users (l : list Row) (w : World) : World :=
  mkWorld l (entropy w) (drawn w) (log w).

Definition emit (e : Event) (w : World) : World :=
  mkWorld (users w) (entropy w) (drawn w) (log w ++ [e]).

Definition draw (w : World) : World :=
  mkWorld (users w) (entropy w) (S (drawn w)) (log w).

(** ** A monad for state and exceptions *)

Definition M (A : Type) : Type := World -> Outcome A * World.

Definition ret {A} (a : A) : M A := fun w => (Return a, w).

Definition raise {A} (e : Exn) : M A := fun w => (Raise e, w).

Definition bind {A B} (m : M A) (k : A -> M B) : M B :=
  fun w =>
    match m w with
    | (Return a, w') => k a w'
    | (Raise e, w') => (Raise e, w')
    end.

Notation "x <- m ;; k" := (bind m (fun x => k))
  (at level 100, m at next level, right associativity).
Notation "m ;;; k" := (bind m (fun _ => k))
  (at level 100, right associativity).

(** [try: body except NoResultFound: handler]. Every other exception
    passes through. *)
Definition try_except_NoResultFound {A} (body handler : M A) : M A :=
  fun w =>
    match body w with
    | (Raise NoResultFound, w') => handler w'
    | r => r
    end.

(** The value returned and the state reached. *)
Definition outcome {A} (m : M A) (w : World) : Outcome A := fst (m w).
Definition after {A} (m : M A) (w : World) : World := snd (m w).

(** ** The persistence collaborator *)

Definition matches (c : Criteria) (r : Row) : Prop :=
  match c with
  | ByEmail e => row_email r = e
  | BySessionId s => row_session_id r = s
  | ByResetToken t => row_reset_token r = Some t
  end.

Global Instance matches_dec c r : Decision (matches c r).
Proof. destruct c; simpl; apply _. Defined.

Definition user_of_row (i : nat) (r : Row) : User :=
  mkUser (Z.of_nat i + 1) (row_email r) (row_hashed_password r)
         (row_session_id r) (row_reset_token r).

(** Position in the table of the row with primary key [user_id]. *)
Definition row_index (user_id : Z) : option nat :=
  if decide (1 <= user_id) then Some (Z.to_nat (user_id - 1)) else None.

Definition get_row (user_id : Z) (l : list Row) : option Row :=
  match row_index user_id with
  | Some i => l !! i
  | None => None
  end.

Definition apply_field (r : Row) (f : FieldUpdate) : Row :=
  match f with
  | SetSessionId v =>
      mkRow (row_email r) (row_hashed_password r) v (row_reset_token r)
  | SetResetToken v =>
      mkRow (row_email r) (row_hashed_password r) (row_session_id r) v
  | SetHashedPassword v =>
      mkRow (row_email r) v (row_session_id r) (row_reset_token r)
  end.

Definition apply_fields (kwargs : list FieldUpdate) (r : Row) : Row :=
  fold_left apply_field kwargs r.

(** The table after one write of [kwargs] to the row [user_id]. *)
Definition write_row (user_id : Z) (kwargs : list FieldUpdate)
    (l : list Row) : list Row :=
  match row_index user_id with
  | Some i =>
      match l !! i with
      | Some r => <[i := apply_fields kwargs r]> l
      | None => l
      end
  | None => l
  end.

Module DB.

(** Modelled from the spec: [db.py] ([DB.find_user_by]) is missing.
    "find_by(criteria: {email} | {session_token} | {reset_token}) ->
    UserRecord, fails with a NotFound signal when no match exists."
    The first matching row, in primary key order, is returned. *)
Definition find_user_by (c : Criteria) : M User :=
  fun w =>
    let w' := emit (DbFind c) w in
    match list_find (matches c) (users w) with
    | Some (i, r) => (Return (user_of_row i r), w')
    | None => (Raise NoResultFound, w')
    end.

(** Modelled from the spec: [db.py] ([DB.add_user]) is missing.
    "insert(email, hashed_password) -> UserRecord with freshly
    assigned id"; session and reset token of a new record are null. *)
Definition add_user (email : string) (hashed_password : bytes) : M User :=
  fun w =>
    let r := mkRow email hashed_password None None in
    (Return (user_of_row (length (users w)) r),
     set_users (users w ++ [r]) (emit (DbAdd email hashed_password) w)).

(** Modelled from the spec: [db.py] ([DB.update_user]) is missing.
    "update(id, partial_fields) -> void, applying the given field set;
    when multiple fields are given together they must be applied as one
    atomic write." The identifier is a required positional parameter:
    a call that passes none raises [TypeError] before the body runs.
    No failure is specified for an identifier without a record. *)
Definition update_user (args : list Z) (kwargs : list FieldUpdate)
  : M unit :=
  match args with
  | [user_id] =>
      fun w =>
        (Return tt,
         set_users (write_row user_id kwargs (users w))
                   (emit (DbUpdate user_id kwargs) w))
  | [] =>
      raise (TypeError
        "update_user() missing 1 required positional argument: 'user_id'")
  | _ =>
      raise (TypeError
        "update_user() takes 2 positional arguments but more were given")
  end.

End DB.

(** Calling the value [None] returned by a method: Python raises
    [TypeError]. *)
Definition call_None {A} (_ : unit) (args : list Z)
    (kwargs : list FieldUpdate) : M A :=
  raise (TypeError "'NoneType' object is not callable").

(** ** Random tokens: [uuid.uuid4] *)

(** [os.urandom(16)] read as a big-endian integer. *)
Definition os_urandom16 : M Z :=
  fun w => (Return (entropy w (drawn w) mod 2 ^ 128), draw w).

(** [UUID(bytes=..., version=4)]: the variant bits are set to RFC 4122
    and the version number to 4. *)
Definition UUID_version4 (int : Z) : Z :=
  let int := Z.land int (Z.lnot (Z.shiftl 0xc000 48)) in
  let int := Z.lor int (Z.shiftl 0x8000 48) in
  let int := Z.land int (Z.lnot (Z.shiftl 0xf000 64)) in
  Z.lor int (Z.shiftl 4 76).

Definition hexdigit (d : Z) : ascii :=
  match String.get (Z.to_nat d) "0123456789abcdef" with
  | Some c => c
  | None => "0"%char
  end.

(** ['%0nx' % x] for [x] of at most [n] hexadecimal digits. *)
Fixpoint hex (n : nat) (x : Z) : string :=
  match n with
  | O => ""
  | S k => hex k (x / 16) +:+ String (hexdigit (x mod 16)) ""
  end.

(** [str(UUID)]: the 32 hexadecimal digits in groups of 8, 4, 4, 4
    and 12. *)
Definition UUID_str (int : Z) : string :=
  let h := hex 32 int in
  String.substring 0 8 h +:+ "-" +:+ String.substring 8 4 h +:+ "-" +:+
  String.substring 12 4 h +:+ "-" +:+ String.substring 16 4 h +:+ "-" +:+
  String.substring 20 12 h.

(** [uuid.uuid4()] is [UUID(bytes=os.urandom(16), version=4)]. *)
Definition uuid4 : M Z :=
  r <- os_urandom16 ;; ret (UUID_version4 r).

(** ** The hashing collaborator *)

(** [bcrypt]: [hashpw(password, salt)], the salt [gensalt()] builds from
    16 random bytes, and [checkpw(password, hashed)]. *)
Class Bcrypt := {
  hashpw : bytes -> bytes -> bytes;
  salt_of : Z -> bytes;
  checkpw : bytes -> bytes -> bool }.

Section Auth.

Context `{Bcrypt}.

Definition gensalt : M bytes :=
  r <- os_urandom16 ;; ret (salt_of r).

Definition _hash_password (password : string) : M bytes :=
  salt <- gensalt ;;
  hashed_password <-
    (fun w => (Return (hashpw (encode password) salt),
               emit (Hashpw (encode password)) w)) ;;
  ret hashed_password.

Definition register_user (email password : string) : M User :=
  try_except_NoResultFound
    (existing_user <- DB.find_user_by (ByEmail email) ;;
     raise (ValueError ("User " +:+ email +:+ " already exists")))
    (hashed_password <- _hash_password password ;;
     new_user <- DB.add_user email hashed_password ;;
     ret new_user).

Definition valid_login (email password : string) : M bool :=
  try_except_NoResultFound
    (user <- DB.find_user_by (ByEmail email) ;;
     ret (checkpw (encode password) (hashed_password user)))
    (ret false).

Definition _generate_uuid : M string :=
  u <- uuid4 ;; ret (UUID_str u).

Definition create_session (email : string) : M (option string) :=
  try_except_NoResultFound
    (user <- DB.find_user_by (ByEmail email) ;;
     session_id <- _generate_uuid ;;
     DB.update_user [id user] [SetSessionId (Some session_id)] ;;;
     ret (Some session_id))
    (ret None).

Definition get_user_from_session_id (session_id : option string)
  : M (option User) :=
  if negb (truthy session_id) then ret None
  else
    try_except_NoResultFound
      (user <- DB.find_user_by (BySessionId session_id) ;;
       ret (Some user))
      (ret None).

Definition destroy_session (user_id : Z) : M unit :=
  DB.update_user [user_id] [SetSessionId None].

Definition get_reset_password_token (email : string) : M string :=
  user <- try_except_NoResultFound
            (DB.find_user_by (ByEmail email))
            (raise (ValueError ("User " +:+ email +:+ " does not exist"))) ;;
  reset_token <- (u <- uuid4 ;; ret (UUID_str u)) ;;
  DB.update_user [id user] [SetResetToken (Some reset_token)] ;;;
  ret reset_token.

Definition update_password (reset_token password : string) : M unit :=
  try_except_NoResultFound
    (user <- DB.find_user_by (ByResetToken reset_token) ;;
     hashed_password <- _hash_password password ;;
     update <- DB.update_user [] [] ;;
     call_None update [id user]
       [SetHashedPassword hashed_password; SetResetToken None])
    (raise (ValueError "Invalid reset token")).

End Auth.

(** ** Specification vocabulary *)

(** No row of the table satisfies the criteria. *)
Definition no_match (c : Criteria) (l : list Row) : Prop :=
  Forall (fun r => ~ matches c r) l.

(** Row [r] at position [i] is the first one satisfying the criteria. *)
Definition first_match (c : Criteria) (l : list Row) (i : nat) (r : Row)
  : Prop :=
  l !! i = Some r /\ matches c r /\
  forall j y, l !! j = Some y -> (j < i)%nat -> ~ matches c y.

(** The token produced by the [n]-th draw from the random source. *)
Definition token_at (w : World) (n : nat) : string :=
  UUID_str (UUID_version4 (entropy w n mod 2 ^ 128)).

(** The error kinds of the service, as the exceptions that carry them. *)
Definition AlreadyExists (email : string) : Exn :=
  ValueError ("User " +:+ email +:+ " already exists").
Definition InvalidTarget (email : string) : Exn :=
  ValueError ("User " +:+ email +:+ " does not exist").
Definition InvalidToken : Exn := ValueError "Invalid reset token".

(** Bit positions [UUID_version4] overwrites (variant: 62-63, version:
    76-79) and the values it writes there. *)
Definition fixed_bit (n : Z) : bool :=
  ((62 <=? n) && (n <=? 63)) || ((76 <=? n) && (n <=? 79)).

Definition fixed_value (n : Z) : bool := (n =? 63) || (n =? 78).

(** The 122 bits of a 128-bit value that [UUID_version4] keeps, packed
    into one number, and the version-4 UUID carrying given 122 bits. *)
Definition random_bits (v : Z) : Z :=
  Z.lor (Z.land v (Z.ones 62))
    (Z.lor (Z.shiftl (Z.land (Z.shiftr v 64) (Z.ones 12)) 62)
           (Z.shiftl (Z.shiftr v 80) 74)).

Definition place_bits (e : Z) : Z :=
  Z.lor (Z.land e (Z.ones 62))
    (Z.lor (Z.shiftl 2 62)
      (Z.lor (Z.shiftl (Z.land (Z.shiftr e 62) (Z.ones 12)) 64)
        (Z.lor (Z.shiftl 4 76) (Z.shiftl (Z.shiftr e 74) 80)))).

(** Value of a hexadecimal digit, as [int(c, 16)] reads it. *)
Definition hexval (c : ascii) : Z :=
  let n := Z.of_N (N_of_ascii c) in
  if n <? 58 then n - 48 else n - 87.

(** The hexadecimal digits of a rendered UUID, dashes removed. *)
Definition strip_dashes (s : string) : string :=
  String.substring 0 8 s +:+ String.substring 9 4 s +:+
  String.substring 14 4 s +:+ String.substring 19 4 s +:+
  String.substring 24 12 s.

(** What a login reads of the table: the email and the password digest
    of every record, in order. *)
Definition credential (r : Row) : string * bytes :=
  (row_email r, row_hashed_password r).

Definition credentials (l : list Row) : list (string * bytes) :=
  credential <$> l.

(** ** A small instance to run the service on *)

(** A stand-in for bcrypt with the same shape: the digest starts with the
    11-character salt, and checking re-hashes with the salt of the
    digest. *)
Definition demo_bcrypt : Bcrypt := {|
  hashpw p s := s +:+ p;
  salt_of r := "$2b$12$" +:+ hex 4 r;
  checkpw p h := String.eqb (String.substring 0 11 h +:+ p) h |}.

Definition demo_entropy (n : nat) : Z :=
  0x0123456789abcdef0123456789abcdef * (Z.of_nat n + 1).

Definition demo_alice : Row :=
  mkRow "a@x.com" "$2b$12$cdefp1"
        (Some "11111111-1111-4111-8111-111111111111")
        (Some "22222222-2222-4222-8222-222222222222").

Definition demo_bob : Row := mkRow "b@x.com" "$2b$12$9bdep2" None None.

Definition demo_world : World :=
  mkWorld [demo_alice; demo_bob] demo_entropy 0 [].

(** ** The users table: lookup and write *)

Lemma find_user_by_first c w i r :
  first_match c (users w) i r ->
  DB.find_user_by c w = (Return (user_of_row i r), emit (DbFind c) w).
Proof.
  intros Hf.
  pose proof (proj2 (list_find_Some (matches c) (users w) i r) Hf) as E.
  unfold DB.find_user_by. now rewrite E.
Qed.

Lemma find_user_by_none c w :
  no_match c (users w) ->
  DB.find_user_by c w = (Raise NoResultFound, emit (DbFind c) w).
Proof.
  intros Hn.
  pose proof (proj2 (list_find_None (matches c) (users w)) Hn) as E.
  unfold DB.find_user_by. now rewrite E.
Qed.

Lemma Exists_first_match c l :
  Exists (matches c) l -> exists i r, first_match c l i r.
Proof.
  intros He. apply Exists_exists in He as (x & Hin & Hx).
  destruct (list_find_elem_of (matches c) l x) as [[i r] Hir]; auto.
  exists i, r. exact (proj1 (list_find_Some (matches c) l i r) Hir).
Qed.

Lemma first_match_not_none c l i r :
  first_match c l i r -> no_match c l -> False.
Proof.
  intros (Hl & Hm & _) Hn.
  eapply Forall_lookup_1 in Hn; eauto.
Qed.

Lemma row_index_of_nat i : row_index (Z.of_nat i + 1) = Some i.
Proof.
  unfold row_index. destruct (decide (1 <= Z.of_nat i + 1)); [|lia].
  f_equal. lia.
Qed.

Lemma row_index_inj a b i :
  row_index a = Some i -> row_index b = Some i -> a = b.
Proof.
  unfold row_index. intros Ha Hb.
  destruct (decide (1 <= a)), (decide (1 <= b)); try discriminate.
  injection Ha as Ha. injection Hb as Hb. lia.
Qed.

Lemma get_row_write_eq uid kw l r :
  get_row uid l = Some r ->
  get_row uid (write_row uid kw l) = Some (apply_fields kw r).
Proof.
  unfold get_row, write_row. destruct (row_index uid) as [i|]; [|discriminate].
  intros Hl. rewrite Hl. apply list_lookup_insert_eq.
  now apply lookup_lt_Some in Hl.
Qed.

Lemma get_row_write_ne uid uid' kw l :
  uid <> uid' -> get_row uid' (write_row uid kw l) = get_row uid' l.
Proof.
  intros Hne. unfold get_row, write_row.
  destruct (row_index uid') as [j|] eqn:Hj; [|reflexivity].
  destruct (row_index uid) as [i|] eqn:Hi; [|reflexivity].
  destruct (l !! i) eqn:Hl; [|reflexivity].
  apply list_lookup_insert_ne. intros ->.
  apply Hne. eapply row_index_inj; eauto.
Qed.

Lemma write_row_absent uid kw l :
  get_row uid l = None -> write_row uid kw l = l.
Proof.
  unfold get_row, write_row. destruct (row_index uid); [|reflexivity].
  now intros ->.
Qed.

Lemma write_row_at i kw l r :
  l !! i = Some r ->
  write_row (Z.of_nat i + 1) kw l = <[i := apply_fields kw r]> l.
Proof.
  intros Hl. unfold write_row. now rewrite row_index_of_nat, Hl.
Qed.

Lemma apply_fields_email kw r : row_email (apply_fields kw r) = row_email r.
Proof.
  unfold apply_fields. revert r.
  induction kw as [|f kw IH]; intros r; [reflexivity|].
  simpl. rewrite IH. now destruct f.
Qed.

(** Writing fields to the first row with a given email leaves that row
    the first one with the email. *)
Lemma first_match_email_write e l i r kw :
  first_match (ByEmail e) l i r ->
  first_match (ByEmail e) (<[i := apply_fields kw r]> l) i
              (apply_fields kw r).
Proof.
  intros (Hl & Hm & Hleast). repeat split.
  - apply list_lookup_insert_eq. now apply lookup_lt_Some in Hl.
  - simpl in *. now rewrite apply_fields_email.
  - intros j y Hj Hlt. rewrite list_lookup_insert_ne in Hj by lia.
    eauto.
Qed.

Lemma write_row_twice uid kw l :
  (forall r, apply_fields kw (apply_fields kw r) = apply_fields kw r) ->
  write_row uid kw (write_row uid kw l) = write_row uid kw l.
Proof.
  intros Hidem. unfold write_row.
  destruct (row_index uid) as [i|]; [|reflexivity].
  destruct (l !! i) as [r|] eqn:Hl; [|now rewrite Hl].
  rewrite list_lookup_insert_eq by (eapply lookup_lt_Some; eauto).
  rewrite Hidem. apply list_insert_insert_eq.
Qed.

(** ** Bits of a version-4 UUID *)

Ltac testbit_step :=
  match goal with
  | |- context [Z.testbit (Z.lor ?a ?b) ?n] => rewrite (Z.lor_spec a b n)
  | |- context [Z.testbit (Z.land ?a ?b) ?n] => rewrite (Z.land_spec a b n)
  | |- context [Z.testbit ?a ?n] =>
      rewrite (Z.testbit_neg_r a n) by lia
  | |- context [Z.testbit (Z.lnot ?a) ?n] =>
      rewrite (Z.lnot_spec a n) by lia
  | |- context [Z.testbit (Z.shiftl ?a ?k) ?n] =>
      rewrite (Z.shiftl_spec a k n) by lia
  | |- context [Z.testbit (Z.shiftr ?a ?k) ?n] =>
      rewrite (Z.shiftr_spec a k n) by lia
  | |- context [Z.testbit (Z.ones ?k) ?n] =>
      rewrite (Z.testbit_ones_nonneg k n) by lia
  | |- context [Z.testbit (2 ^ ?k) ?n] =>
      rewrite (Z.pow2_bits_eqb k n) by lia
  end.

Ltac decide_cmp :=
  match goal with
  | |- context [?a <? ?b] =>
      first [ rewrite (proj2 (Z.ltb_lt a b)) by lia
            | rewrite (proj2 (Z.ltb_ge a b)) by lia ]
  | |- context [?a <=? ?b] =>
      first [ rewrite (proj2 (Z.leb_le a b)) by lia
            | rewrite (proj2 (Z.leb_gt a b)) by lia ]
  | |- context [?a =? ?b] =>
      first [ rewrite (proj2 (Z.eqb_eq a b)) by lia
            | rewrite (proj2 (Z.eqb_neq a b)) by lia ]
  end.

Ltac same_bit :=
  match goal with
  | |- Z.testbit ?a ?i = Z.testbit ?a ?j =>
      apply (f_equal (Z.testbit a)); lia
  end.

Ltac bits :=
  repeat testbit_step; repeat decide_cmp; simpl;
  rewrite ?andb_true_r, ?andb_false_r, ?orb_false_r, ?orb_true_r; simpl;
  try reflexivity; try same_bit.

Lemma UUID_version4_consts :
  Z.shiftl 0xc000 48 = Z.shiftl (Z.ones 2) 62 /\
  Z.shiftl 0x8000 48 = 2 ^ 63 /\
  Z.shiftl 0xf000 64 = Z.shiftl (Z.ones 4) 76 /\
  Z.shiftl 4 76 = 2 ^ 78 /\ Z.shiftl 2 62 = 2 ^ 63.
Proof. repeat split. Qed.

Lemma UUID_version4_bit r n :
  0 <= n ->
  Z.testbit (UUID_version4 r) n =
    if fixed_bit n then fixed_value n else Z.testbit r n.
Proof.
  intros Hn. unfold UUID_version4, fixed_bit, fixed_value.
  destruct UUID_version4_consts as (-> & -> & -> & -> & _).
  assert (n < 62 \/ n = 62 \/ n = 63 \/ 64 <= n < 76 \/
          76 <= n < 78 \/ n = 78 \/ n = 79 \/ 80 <= n) as Hc by lia.
  destruct Hc as [?|[?|[?|[?|[?|[?|[?|?]]]]]]]; bits.
Qed.

Lemma testbit_above v k n :
  0 <= v < 2 ^ k -> k <= n -> Z.testbit v n = false.
Proof.
  intros Hv Hk.
  destruct (Z.le_gt_cases 0 k) as [Hk0|Hk0].
  - rewrite <- (Z.mod_small v (2 ^ k)) by lia.
    apply Z.mod_pow2_bits_high. lia.
  - rewrite (Z.pow_neg_r 2 k) in Hv by lia. lia.
Qed.

Lemma below_pow2 v k :
  0 <= k -> 0 <= v ->
  (forall n, k <= n -> Z.testbit v n = false) -> v < 2 ^ k.
Proof.
  intros Hk Hv Hb.
  assert (E : v = v mod 2 ^ k).
  { apply Z.bits_inj'. intros n Hn.
    destruct (Z.lt_ge_cases n k).
    - now rewrite Z.mod_pow2_bits_low.
    - rewrite Z.mod_pow2_bits_high by lia. now apply Hb. }
  rewrite E. apply Z.mod_pos_bound. lia.
Qed.

Lemma random_bits_bit v n :
  0 <= n ->
  Z.testbit (random_bits v) n =
    if n <? 62 then Z.testbit v n
    else if n <? 74 then Z.testbit v (n + 2)
    else Z.testbit v (n + 6).
Proof.
  intros Hn. unfold random_bits.
  assert (n < 62 \/ 62 <= n < 74 \/ 74 <= n) as Hc by lia.
  destruct Hc as [?|[?|?]]; bits.
Qed.

Lemma place_bits_bit e n :
  0 <= n ->
  Z.testbit (place_bits e) n =
    if fixed_bit n then fixed_value n
    else if n <? 62 then Z.testbit e n
    else if n <? 76 then Z.testbit e (n - 2)
    else Z.testbit e (n - 6).
Proof.
  intros Hn. unfold place_bits, fixed_bit, fixed_value.
  destruct UUID_version4_consts as (_ & _ & _ & -> & ->).
  assert (n < 62 \/ n = 62 \/ n = 63 \/ 64 <= n < 76 \/
          76 <= n < 78 \/ n = 78 \/ n = 79 \/ 80 <= n) as Hc by lia.
  destruct Hc as [?|[?|[?|[?|[?|[?|[?|?]]]]]]]; bits.
Qed.

Lemma UUID_version4_nonneg r : 0 <= r -> 0 <= UUID_version4 r.
Proof.
  intros Hr. unfold UUID_version4.
  apply Z.lor_nonneg. split; [|now vm_compute].
  apply Z.land_nonneg. left.
  apply Z.lor_nonneg. split; [|now vm_compute].
  apply Z.land_nonneg. now left.
Qed.

Lemma UUID_version4_range r :
  0 <= r < 2 ^ 128 -> 0 <= UUID_version4 r < 2 ^ 128.
Proof.
  intros Hr. split; [apply UUID_version4_nonneg; lia|].
  apply below_pow2; [lia | apply UUID_version4_nonneg; lia |].
  intros n Hn. rewrite UUID_version4_bit by lia.
  unfold fixed_bit. repeat decide_cmp. simpl.
  now apply (testbit_above r 128).
Qed.

Lemma random_bits_range v :
  0 <= v < 2 ^ 128 -> 0 <= random_bits v < 2 ^ 122.
Proof.
  intros Hv.
  assert (H0 : 0 <= random_bits v).
  { unfold random_bits. rewrite !Z.lor_nonneg. repeat split.
    - apply Z.land_nonneg. left. lia.
    - apply Z.shiftl_nonneg, Z.land_nonneg. right. now vm_compute.
    - apply Z.shiftl_nonneg, Z.shiftr_nonneg. lia. }
  split; [exact H0|].
  apply below_pow2; [lia | exact H0 |].
  intros n Hn. rewrite random_bits_bit by lia. repeat decide_cmp.
  apply (testbit_above v 128); lia.
Qed.

Lemma place_bits_nonneg e : 0 <= e -> 0 <= place_bits e.
Proof.
  intros He. unfold place_bits. rewrite !Z.lor_nonneg. repeat split.
  - apply Z.land_nonneg. now left.
  - now vm_compute.
  - apply Z.shiftl_nonneg, Z.land_nonneg. right. now vm_compute.
  - now vm_compute.
  - now apply Z.shiftl_nonneg, Z.shiftr_nonneg.
Qed.

Lemma place_bits_range e :
  0 <= e < 2 ^ 122 -> 0 <= place_bits e < 2 ^ 128.
Proof.
  intros He. split; [apply place_bits_nonneg; lia|].
  apply below_pow2; [lia | apply place_bits_nonneg; lia |].
  intros n Hn. rewrite place_bits_bit by lia.
  unfold fixed_bit. repeat decide_cmp. simpl.
  apply (testbit_above e 122); lia.
Qed.

Lemma UUID_version4_place_random r :
  UUID_version4 r = place_bits (random_bits r).
Proof.
  apply Z.bits_inj'. intros n Hn.
  rewrite UUID_version4_bit, place_bits_bit by lia.
  destruct (fixed_bit n) eqn:Hf; [reflexivity|].
  unfold fixed_bit in Hf.
  assert (n < 62 \/ 64 <= n < 76 \/ 80 <= n) as Hc.
  { apply orb_false_iff in Hf as [H1 H2].
    apply andb_false_iff in H1, H2. rewrite !Z.leb_gt in H1, H2. lia. }
  destruct Hc as [?|[?|?]]; repeat decide_cmp;
    rewrite random_bits_bit by lia; repeat decide_cmp; same_bit.
Qed.

Lemma random_place_bits e :
  0 <= e < 2 ^ 122 -> random_bits (place_bits e) = e.
Proof.
  intros He. apply Z.bits_inj'. intros n Hn.
  rewrite random_bits_bit by lia.
  assert (n < 62 \/ 62 <= n < 74 \/ 74 <= n) as Hc by lia.
  destruct Hc as [?|[?|?]]; repeat decide_cmp;
    rewrite place_bits_bit by lia; unfold fixed_bit;
    repeat decide_cmp; simpl; same_bit.
Qed.

Lemma UUID_version4_place_bits e :
  UUID_version4 (place_bits e) = place_bits e.
Proof.
  apply Z.bits_inj'. intros n Hn.
  rewrite UUID_version4_bit, place_bits_bit by lia.
  now destruct (fixed_bit n).
Qed.

(** ** The rendering of a UUID *)

Lemma hexval_hexdigit d : 0 <= d < 16 -> hexval (hexdigit d) = d.
Proof.
  intros Hd.
  assert (d = 0 \/ d = 1 \/ d = 2 \/ d = 3 \/ d = 4 \/ d = 5 \/ d = 6 \/
          d = 7 \/ d = 8 \/ d = 9 \/ d = 10 \/ d = 11 \/ d = 12 \/
          d = 13 \/ d = 14 \/ d = 15) as Hc by lia.
  repeat (destruct Hc as [-> | Hc]; [reflexivity|]). now subst.
Qed.

Lemma append_last_inj a b c d :
  a +:+ String c "" = b +:+ String d "" -> a = b /\ c = d.
Proof.
  revert b. induction a as [|x a IH]; intros [|y b]; simpl; intros E.
  - now injection E.
  - injection E as _ E. destruct b; discriminate.
  - injection E as _ E. destruct a; discriminate.
  - injection E as -> E. apply IH in E as [-> ->]. now split.
Qed.

Lemma hex_inj n x y :
  0 <= x < 16 ^ Z.of_nat n -> 0 <= y < 16 ^ Z.of_nat n ->
  hex n x = hex n y -> x = y.
Proof.
  revert x y. induction n as [|k IH]; intros x y Hx Hy E.
  - simpl in Hx, Hy. lia.
  - rewrite Nat2Z.inj_succ, Z.pow_succ_r in Hx, Hy by lia.
    simpl in E. apply append_last_inj in E as [E1 E2].
    apply IH in E1;
      [| split; [apply Z.div_pos | apply Z.div_lt_upper_bound]; lia ..].
    apply (f_equal hexval) in E2.
    rewrite !hexval_hexdigit in E2 by (apply Z.mod_pos_bound; lia).
    rewrite (Z.div_mod x 16), (Z.div_mod y 16) by lia. congruence.
Qed.

Lemma strip_dashes_UUID_str v : strip_dashes (UUID_str v) = hex 32 v.
Proof. reflexivity. Qed.

Lemma UUID_str_length v : String.length (UUID_str v) = 36%nat.
Proof. reflexivity. Qed.

Lemma UUID_str_inj v v' :
  0 <= v < 2 ^ 128 -> 0 <= v' < 2 ^ 128 ->
  UUID_str v = UUID_str v' -> v = v'.
Proof.
  intros Hv Hv' E. apply (f_equal strip_dashes) in E.
  rewrite !strip_dashes_UUID_str in E.
  apply (hex_inj 32); assumption.
Qed.

(** ** The methods of [Auth] *)

Ltac run_auth :=
  unfold outcome, after, try_except_NoResultFound, bind, ret, raise; simpl.

Section AuthSpec.

Context `{Bcrypt}.

(** *** Registration *)

Lemma register_user_taken email password w :
  Exists (matches (ByEmail email)) (users w) ->
  register_user email password w =
    (Raise (AlreadyExists email), emit (DbFind (ByEmail email)) w).
Proof.
  intros He. destruct (Exists_first_match _ _ He) as (i & r & Hf).
  unfold register_user. run_auth.
  now rewrite (find_user_by_first _ _ _ _ Hf).
Qed.

Lemma register_user_free email password w :
  no_match (ByEmail email) (users w) ->
  let digest :=
    hashpw (encode password) (salt_of (entropy w (drawn w) mod 2 ^ 128)) in
  register_user email password w =
    (Return (mkUser (Z.of_nat (length (users w)) + 1) email digest
                    None None),
     mkWorld (users w ++ [mkRow email digest None None]) (entropy w)
             (S (drawn w))
             (log w ++ [DbFind (ByEmail email)]
                    ++ [Hashpw (encode password)]
                    ++ [DbAdd email digest])).
Proof.
  intros Hn digest. unfold register_user. run_auth.
  rewrite (find_user_by_none _ _ Hn).
  unfold DB.add_user, set_users, emit, draw, user_of_row. simpl.
  now rewrite <- !app_assoc.
Qed.

(** C3: [register_user] raises the already-exists error carrying the
    email when a record with that email exists, leaving the table as it
    was; otherwise it hashes the password, inserts a record with that
    email and digest and with null session and reset tokens, and returns
    the new record; registering the same email again then fails. *)
Theorem register_user_spec email password password' w :
  (Exists (matches (ByEmail email)) (users w) ->
     outcome (register_user email password) w
       = Raise (ValueError ("User " +:+ email +:+ " already exists")) /\
     users (after (register_user email password) w) = users w) /\
  (no_match (ByEmail email) (users w) ->
     let digest :=
       hashpw (encode password)
              (salt_of (entropy w (drawn w) mod 2 ^ 128)) in
     outcome (register_user email password) w
       = Return (mkUser (Z.of_nat (length (users w)) + 1) email digest
                        None None) /\
     users (after (register_user email password) w)
       = users w ++ [mkRow email digest None None] /\
     get_row (Z.of_nat (length (users w)) + 1)
             (users (after (register_user email password) w))
       = Some (mkRow email digest None None) /\
     outcome (register_user email password ;;;
              register_user email password') w
       = Raise (AlreadyExists email)).
Proof.
  split.
  - intros He. unfold outcome, after.
    now rewrite (register_user_taken _ _ _ He).
  - intros Hn digest. unfold outcome, after, bind.
    rewrite (register_user_free _ _ _ Hn). simpl. fold digest.
    repeat split.
    + unfold get_row. rewrite row_index_of_nat.
      rewrite lookup_app_r by lia. now rewrite Nat.sub_diag.
    + rewrite register_user_taken; [reflexivity|]. simpl.
      apply Exists_app. right. now constructor.
Qed.

(** C10: on the already-exists path [register_user] performs the one
    lookup and nothing else: no password hash is computed, no salt is
    drawn, nothing is written, and the table is unchanged. *)
Theorem register_user_error_no_effect email password w :
  Exists (matches (ByEmail email)) (users w) ->
  let w' := after (register_user email password) w in
  outcome (register_user email password) w = Raise (AlreadyExists email) /\
  users w' = users w /\
  drawn w' = drawn w /\
  log w' = log w ++ [DbFind (ByEmail email)].
Proof.
  intros He. unfold outcome, after.
  now rewrite (register_user_taken _ _ _ He).
Qed.

(** *** Login *)

(** C4: [valid_login] returns [False] without raising when no record has
    the email, returns the result of [bcrypt.checkpw] on the password and
    the stored digest when one has, and never changes the table. *)
Theorem valid_login_spec email password w :
  (no_match (ByEmail email) (users w) ->
     outcome (valid_login email password) w = Return false) /\
  (forall i r, first_match (ByEmail email) (users w) i r ->
     outcome (valid_login email password) w
       = Return (checkpw (encode password) (row_hashed_password r))) /\
  users (after (valid_login email password) w) = users w /\
  drawn (after (valid_login email password) w) = drawn w.
Proof.
  unfold valid_login. run_auth. repeat split.
  - intros Hn. now rewrite (find_user_by_none _ _ Hn).
  - intros i r Hf. now rewrite (find_user_by_first _ _ _ _ Hf).
  - unfold DB.find_user_by.
    now destruct (list_find _ _) as [[i r]|].
  - unfold DB.find_user_by.
    now destruct (list_find _ _) as [[i r]|].
Qed.

(** *** Sessions *)

Lemma create_session_found email w i r :
  first_match (ByEmail email) (users w) i r ->
  let t := token_at w (drawn w) in
  create_session email w =
    (Return (Some t),
     mkWorld (<[i := apply_fields [SetSessionId (Some t)] r]> (users w))
             (entropy w) (S (drawn w))
             (log w ++ [DbFind (ByEmail email)]
                    ++ [DbUpdate (Z.of_nat i + 1)
                                 [SetSessionId (Some t)]])).
Proof.
  intros Hf t. unfold create_session. run_auth.
  rewrite (find_user_by_first _ _ _ _ Hf). simpl.
  rewrite (write_row_at i _ _ r) by apply Hf.
  unfold emit, set_users. simpl. now rewrite <- app_assoc.
Qed.

Lemma create_session_absent email w :
  no_match (ByEmail email) (users w) ->
  create_session email w = (Return None, emit (DbFind (ByEmail email)) w).
Proof.
  intros Hn. unfold create_session. run_auth.
  now rewrite (find_user_by_none _ _ Hn).
Qed.

Lemma get_user_from_session_id_unknown s w :
  no_match (BySessionId (Some s)) (users w) ->
  outcome (get_user_from_session_id (Some s)) w = Return None.
Proof.
  intros Hn. unfold get_user_from_session_id.
  destruct (negb (truthy (Some s))); [reflexivity|].
  run_auth. now rewrite (find_user_by_none _ _ Hn).
Qed.

(** C2: [create_session] returns [None] without raising when no record
    has the email; otherwise it stores the token it generated as the
    session id of the record found, whatever the record held before, and
    returns it. A record holds one session id, so when the generated
    tokens are fresh the first token no longer resolves to any record
    after a second [create_session] for the same email. *)
Theorem create_session_spec email w :
  (no_match (ByEmail email) (users w) ->
     outcome (create_session email) w = Return None /\
     users (after (create_session email) w) = users w) /\
  (forall i r, first_match (ByEmail email) (users w) i r ->
     let t := token_at w (drawn w) in
     let w' := after (create_session email) w in
     outcome (create_session email) w = Return (Some t) /\
     get_row (Z.of_nat i + 1) (users w')
       = Some (mkRow (row_email r) (row_hashed_password r) (Some t)
                     (row_reset_token r)) /\
     (forall uid, uid <> Z.of_nat i + 1 ->
        get_row uid (users w') = get_row uid (users w))) /\
  (Exists (matches (ByEmail email)) (users w) ->
     let t1 := token_at w (drawn w) in
     let t2 := token_at w (S (drawn w)) in
     no_match (BySessionId (Some t1)) (users w) ->
     t2 <> t1 ->
     outcome (create_session email ;;; create_session email ;;;
              get_user_from_session_id (Some t1)) w = Return None).
Proof.
  split; [|split].
  - intros Hn. unfold outcome, after.
    now rewrite (create_session_absent _ _ Hn).
  - intros i r Hf t w'. subst w'. unfold outcome, after.
    rewrite (create_session_found _ _ _ _ Hf). cbn [fst snd users].
    fold t. destruct Hf as (Hl & _ & _).
    rewrite <- (write_row_at i _ _ r Hl).
    split; [reflexivity|]. split.
    + erewrite get_row_write_eq; [reflexivity|].
      unfold get_row. now rewrite row_index_of_nat.
    + intros uid Hne. now apply get_row_write_ne.
  - intros He t1 t2 Hfresh Hne.
    destruct (Exists_first_match _ _ He) as (i & r & Hf).
    unfold outcome, bind at 1.
    rewrite (create_session_found _ _ _ _ Hf). fold t1.
    set (r1 := apply_fields [SetSessionId (Some t1)] r).
    set (w1 := mkWorld _ _ _ _).
    pose proof (first_match_email_write email (users w) i r
                  [SetSessionId (Some t1)] Hf) as Hf1.
    fold r1 in Hf1.
    unfold bind.
    rewrite (create_session_found email w1 i r1 Hf1).
    unfold token_at at 1 2. simpl. fold (token_at w (S (drawn w))).
    fold t2.
    apply (get_user_from_session_id_unknown t1). simpl.
    rewrite list_insert_insert_eq.
    apply Forall_lookup. intros j y Hj. simpl.
    destruct (decide (j = i)) as [->|Hji].
    + rewrite list_lookup_insert_eq in Hj
        by (destruct Hf as (Hl & _); now apply lookup_lt_Some in Hl).
      injection Hj as <-. simpl. congruence.
    + rewrite list_lookup_insert_ne in Hj by congruence.
      eapply Forall_lookup_1 in Hfresh; eauto.
Qed.

(** C5: [get_user_from_session_id] returns [None] at once, without any
    call to the store, for [None] and for the empty string; otherwise it
    returns the record found by session id, or [None] when there is
    none; the table is never changed. *)
Theorem get_user_from_session_id_spec session_id w :
  (session_id = None \/ session_id = Some "" ->
     get_user_from_session_id session_id w = (Return None, w)) /\
  (forall s, session_id = Some s -> s <> "" ->
     (no_match (BySessionId (Some s)) (users w) ->
        outcome (get_user_from_session_id session_id) w = Return None) /\
     (forall i r, first_match (BySessionId (Some s)) (users w) i r ->
        outcome (get_user_from_session_id session_id) w
          = Return (Some (mkUser (Z.of_nat i + 1) (row_email r)
                                 (row_hashed_password r) (Some s)
                                 (row_reset_token r)))) /\
     log (after (get_user_from_session_id session_id) w)
       = log w ++ [DbFind (BySessionId (Some s))]) /\
  users (after (get_user_from_session_id session_id) w) = users w.
Proof.
  split; [|split].
  - now intros [-> | ->].
  - intros s -> Hs.
    assert (Ht : negb (truthy (Some s)) = false).
    { simpl. destruct s; [congruence | reflexivity]. }
    unfold get_user_from_session_id. rewrite Ht. run_auth.
    repeat split.
    + intros Hn. now rewrite (find_user_by_none _ _ Hn).
    + intros i r Hf. rewrite (find_user_by_first _ _ _ _ Hf). simpl.
      destruct Hf as (_ & Hm & _). simpl in Hm.
      unfold user_of_row. now rewrite Hm.
    + unfold DB.find_user_by.
      now destruct (list_find _ _) as [[i r]|].
  - unfold get_user_from_session_id.
    destruct (negb (truthy session_id)); [reflexivity|].
    run_auth. unfold DB.find_user_by.
    now destruct (list_find _ _) as [[i r]|].
Qed.

(** C8: [destroy_session] never raises, whether or not a record with
    the identifier exists and whether or not it has a session; it sets
    the session id of that record to null and touches no other record;
    a second call leaves the table as the first one left it. *)
Theorem destroy_session_spec user_id w :
  let w' := after (destroy_session user_id) w in
  outcome (destroy_session user_id) w = Return tt /\
  (forall r, get_row user_id (users w) = Some r ->
     get_row user_id (users w')
       = Some (mkRow (row_email r) (row_hashed_password r) None
                     (row_reset_token r))) /\
  (get_row user_id (users w) = None -> users w' = users w) /\
  (forall uid, uid <> user_id ->
     get_row uid (users w') = get_row uid (users w)) /\
  outcome (destroy_session user_id ;;; destroy_session user_id) w
    = Return tt /\
  users (after (destroy_session user_id ;;; destroy_session user_id) w)
    = users w'.
Proof.
  unfold destroy_session, DB.update_user. run_auth.
  split; [reflexivity|]. split; [|split; [|split; [|split]]].
  - intros r Hr. now rewrite (get_row_write_eq _ _ _ _ Hr).
  - apply write_row_absent.
  - intros uid Hne. apply get_row_write_ne. congruence.
  - reflexivity.
  - now apply write_row_twice.
Qed.

(** *** Password reset *)

Lemma get_reset_password_token_found email w i r :
  first_match (ByEmail email) (users w) i r ->
  let t := token_at w (drawn w) in
  get_reset_password_token email w =
    (Return t,
     mkWorld (<[i := apply_fields [SetResetToken (Some t)] r]> (users w))
             (entropy w) (S (drawn w))
             (log w ++ [DbFind (ByEmail email)]
                    ++ [DbUpdate (Z.of_nat i + 1)
                                 [SetResetToken (Some t)]])).
Proof.
  intros Hf t. unfold get_reset_password_token. run_auth.
  rewrite (find_user_by_first _ _ _ _ Hf). simpl.
  rewrite (write_row_at i _ _ r) by apply Hf.
  unfold emit, set_users. simpl. now rewrite <- app_assoc.
Qed.

(** C6: [get_reset_password_token] raises the invalid-target error when
    no record has the email, drawing nothing from the random source;
    otherwise it draws one value from the random source, stores the token
    generated from it as the reset token of the record found, whatever the
    record held before, and returns it: a second call returns the token of
    the next draw and stores that one in place of the first. *)
Theorem get_reset_password_token_spec email w :
  (no_match (ByEmail email) (users w) ->
     outcome (get_reset_password_token email) w
       = Raise (ValueError ("User " +:+ email +:+ " does not exist")) /\
     users (after (get_reset_password_token email) w) = users w /\
     drawn (after (get_reset_password_token email) w) = drawn w) /\
  (forall i r, first_match (ByEmail email) (users w) i r ->
     let t := token_at w (drawn w) in
     let w' := after (get_reset_password_token email) w in
     outcome (get_reset_password_token email) w = Return t /\
     get_row (Z.of_nat i + 1) (users w')
       = Some (mkRow (row_email r) (row_hashed_password r)
                     (row_session_id r) (Some t)) /\
     (forall uid, uid <> Z.of_nat i + 1 ->
        get_row uid (users w') = get_row uid (users w)) /\
     drawn w' = S (drawn w) /\
     entropy w' = entropy w /\
     let t2 := token_at w (S (drawn w)) in
     let twice :=
       (get_reset_password_token email ;;;
        get_reset_password_token email) in
     outcome twice w = Return t2 /\
     get_row (Z.of_nat i + 1) (users (after twice w))
       = Some (mkRow (row_email r) (row_hashed_password r)
                     (row_session_id r) (Some t2)) /\
     drawn (after twice w) = S (S (drawn w))).
Proof.
  split.
  - intros Hn. unfold get_reset_password_token. run_auth.
    now rewrite (find_user_by_none _ _ Hn).
  - intros i r Hf t w'. subst w'.
    pose proof (first_match_email_write email (users w) i r
                  [SetResetToken (Some t)] Hf) as Hf1.
    pose proof Hf as (Hl & _ & _).
    set (r1 := apply_fields [SetResetToken (Some t)] r) in *.
    assert (E1 : get_reset_password_token email w =
                 (Return t,
                  mkWorld (<[i := r1]> (users w)) (entropy w) (S (drawn w))
                    (log w ++ [DbFind (ByEmail email)]
                           ++ [DbUpdate (Z.of_nat i + 1)
                                        [SetResetToken (Some t)]])))
      by exact (get_reset_password_token_found _ _ _ _ Hf).
    unfold outcome, after, bind. rewrite E1.
    set (w1 := mkWorld _ _ _ _).
    rewrite (get_reset_password_token_found email w1 i r1 Hf1).
    cbv zeta. cbn [fst snd users drawn entropy w1].
    unfold token_at at 3 4. cbn [entropy drawn].
    fold (token_at w (S (drawn w))).
    split; [reflexivity|]. split; [|split; [|split; [|split]]].
    + unfold get_row. rewrite row_index_of_nat.
      apply list_lookup_insert_eq. now apply lookup_lt_Some in Hl.
    + intros uid Hne. subst r1.
      rewrite <- (write_row_at i _ _ r Hl). now apply get_row_write_ne.
    + reflexivity.
    + reflexivity.
    + split; [reflexivity|]. split; [|reflexivity].
      rewrite list_insert_insert_eq. unfold get_row.
      rewrite row_index_of_nat.
      rewrite list_lookup_insert_eq by (now apply lookup_lt_Some in Hl).
      reflexivity.
Qed.

Lemma update_password_matching_token reset_token password w :
  Exists (matches (ByResetToken reset_token)) (users w) ->
  outcome (update_password reset_token password) w
    = Raise (TypeError
        "update_user() missing 1 required positional argument: 'user_id'")
  /\ users (after (update_password reset_token password) w) = users w.
Proof.
  intros He. destruct (Exists_first_match _ _ He) as (i & r & Hf).
  unfold update_password. run_auth.
  now rewrite (find_user_by_first _ _ _ _ Hf).
Qed.

(** C7: [update_password] raises the invalid-token error when no record
    holds the given reset token, and leaves the table unchanged. *)
Theorem update_password_invalid_token reset_token password w :
  no_match (ByResetToken reset_token) (users w) ->
  outcome (update_password reset_token password) w
    = Raise (ValueError "Invalid reset token") /\
  users (after (update_password reset_token password) w) = users w.
Proof.
  intros Hn. unfold update_password. run_auth.
  now rewrite (find_user_by_none _ _ Hn).
Qed.

(** C1 (fails on the code): after a registration and the issue of a reset
    token, [update_password] with that token raises [TypeError] at the
    call [self._db.update_user()], which passes no user id: the digest and
    the reset token of the record stay as they were, and a second call
    with the same token raises [TypeError] again, not the invalid-token
    error. *)
Theorem update_password_valid_token_raises :
  let w0 := mkWorld [] demo_entropy 0 [] in
  let token := "02468acf-1357-4bde-8246-8acf13579bde" in
  let issue :=
    (register_user "a@x.com" "p1" ;;; get_reset_password_token "a@x.com") in
  let w1 := after issue w0 in
  let arity_error :=
    TypeError
      "update_user() missing 1 required positional argument: 'user_id'" in
  outcome issue w0 = Return token /\
  users w1 =
    [mkRow "a@x.com"
           (hashpw (encode "p1") (salt_of (demo_entropy 0 mod 2 ^ 128)))
           None (Some token)] /\
  outcome (update_password token "p2") w1 = Raise arity_error /\
  users (after (update_password token "p2") w1) = users w1 /\
  outcome (update_password token "p2" ;;; update_password token "p2") w1
    = Raise arity_error /\
  arity_error <> InvalidToken.
Proof.
  repeat split; try reflexivity. discriminate.
Qed.

End AuthSpec.

(** ** The token generator *)

Lemma create_session_token email w t :
  outcome (create_session email) w = Return (Some t) ->
  t = token_at w (drawn w).
Proof.
  unfold create_session, DB.find_user_by. run_auth.
  destruct (list_find _ _) as [[i r]|]; simpl; [|discriminate].
  now intros [= <-].
Qed.

Lemma get_reset_password_token_token email w t :
  outcome (get_reset_password_token email) w = Return t ->
  t = token_at w (drawn w).
Proof.
  unfold get_reset_password_token, DB.find_user_by. run_auth.
  destruct (list_find _ _) as [[i r]|]; simpl; [|discriminate].
  now intros [= <-].
Qed.

(** C9 (as the code has it): session tokens and reset tokens come from
    the same generator, [str(uuid.uuid4())]: a 128-bit value rendered as a
    string of 36 characters. Six of its bits are fixed (variant and
    version) and the other 122 are those of the random source, so the
    tokens correspond one to one to the 122-bit numbers: the value space
    has 2^122 elements, not 2^128. *)
Theorem generate_uuid_value_space :
  (forall w, _generate_uuid w = (Return (token_at w (drawn w)), draw w)) /\
  (forall email w t,
     outcome (create_session email) w = Return (Some t) ->
     t = token_at w (drawn w)) /\
  (forall email w t,
     outcome (get_reset_password_token email) w = Return t ->
     t = token_at w (drawn w)) /\
  (forall r, 0 <= r < 2 ^ 128 ->
     0 <= UUID_version4 r < 2 ^ 128 /\
     (forall n, 0 <= n ->
        Z.testbit (UUID_version4 r) n =
          if fixed_bit n then fixed_value n else Z.testbit r n) /\
     0 <= random_bits r < 2 ^ 122 /\
     UUID_version4 r = place_bits (random_bits r) /\
     String.length (UUID_str (UUID_version4 r)) = 36%nat) /\
  (forall e, 0 <= e < 2 ^ 122 ->
     0 <= place_bits e < 2 ^ 128 /\
     UUID_version4 (place_bits e) = place_bits e) /\
  (forall e e', 0 <= e < 2 ^ 122 -> 0 <= e' < 2 ^ 122 ->
     UUID_str (place_bits e) = UUID_str (place_bits e') -> e = e').
Proof.
  split; [reflexivity|].
  split; [exact create_session_token|].
  split; [exact get_reset_password_token_token|].
  split; [|split].
  - intros r Hr. split; [now apply UUID_version4_range|].
    split; [intros n Hn; now apply UUID_version4_bit|].
    split; [now apply random_bits_range|].
    split; [apply UUID_version4_place_random | apply UUID_str_length].
  - intros e He. split; [now apply place_bits_range|].
    apply UUID_version4_place_bits.
  - intros e e' He He' E.
    apply UUID_str_inj in E; try now apply place_bits_range.
    rewrite <- (random_place_bits e He), <- (random_place_bits e' He').
    now rewrite E.
Qed.

(** Against C9 as stated: two different outputs of the random source
    give the same token, so 128 random bits do not give 2^128 tokens. *)
Lemma uuid4_two_draws_one_token :
  (0 <= 0 < 2 ^ 128 /\ 0 <= 2 ^ 62 < 2 ^ 128 /\ 0 <> 2 ^ 62) /\
  UUID_str (UUID_version4 0) = "00000000-0000-4000-8000-000000000000" /\
  UUID_str (UUID_version4 (2 ^ 62)) = "00000000-0000-4000-8000-000000000000" /\
  outcome _generate_uuid (mkWorld [] (fun _ => 0) 0 [])
    = outcome _generate_uuid (mkWorld [] (fun _ => 2 ^ 62) 0 []) /\
  ~ (forall r r', 0 <= r < 2 ^ 128 -> 0 <= r' < 2 ^ 128 ->
       UUID_str (UUID_version4 r) = UUID_str (UUID_version4 r') -> r = r').
Proof.
  assert (Hr : 0 <= 0 < 2 ^ 128 /\ 0 <= 2 ^ 62 < 2 ^ 128 /\ 0 <> 2 ^ 62)
    by (repeat split; (discriminate || reflexivity)).
  split; [exact Hr|]. repeat split.
  intros Hinj. destruct Hr as (H0 & H1 & Hne).
  apply Hne. now apply Hinj.
Qed.

(** ** The theorems at work on the demo instance *)

Lemma demo_alice_first :
  first_match (ByEmail "a@x.com") (users demo_world) 0 demo_alice.
Proof.
  split; [reflexivity|]. split; [reflexivity|]. intros j y _ Hj. lia.
Defined.

Lemma demo_carol_absent : no_match (ByEmail "c@x.com") (users demo_world).
Proof. repeat constructor; discriminate. Defined.

Lemma demo_alice_registered :
  Exists (matches (ByEmail "a@x.com")) (users demo_world).
Proof. apply Exists_cons_hd. reflexivity. Defined.

Lemma register_user_spec_witness :
  (Exists (matches (ByEmail "a@x.com")) (users demo_world) /\
   outcome (@register_user demo_bcrypt "a@x.com" "pw") demo_world
     = Raise (ValueError "User a@x.com already exists")) /\
  (no_match (ByEmail "c@x.com") (users demo_world) /\
   outcome (@register_user demo_bcrypt "c@x.com" "pw") demo_world
     = Return (mkUser 3 "c@x.com" "$2b$12$cdefpw" None None)).
Proof.
  split; (split; [first [exact demo_alice_registered
                        | exact demo_carol_absent]|]).
  - exact (proj1 (proj1 (@register_user_spec demo_bcrypt
             "a@x.com" "pw" "pw" demo_world) demo_alice_registered)).
  - exact (proj1 (proj2 (@register_user_spec demo_bcrypt
             "c@x.com" "pw" "pw" demo_world) demo_carol_absent)).
Defined.

Lemma register_user_error_no_effect_witness :
  Exists (matches (ByEmail "a@x.com")) (users demo_world) /\
  log (after (@register_user demo_bcrypt "a@x.com" "pw") demo_world)
    = [DbFind (ByEmail "a@x.com")].
Proof.
  split; [exact demo_alice_registered|].
  exact (proj2 (proj2 (proj2 (@register_user_error_no_effect demo_bcrypt
           "a@x.com" "pw" demo_world demo_alice_registered)))).
Defined.

Lemma valid_login_spec_witness :
  (no_match (ByEmail "c@x.com") (users demo_world) /\
   outcome (@valid_login demo_bcrypt "c@x.com" "p1") demo_world
     = Return false) /\
  (first_match (ByEmail "a@x.com") (users demo_world) 0 demo_alice /\
   outcome (@valid_login demo_bcrypt "a@x.com" "p1") demo_world
     = Return true /\
   outcome (@valid_login demo_bcrypt "a@x.com" "p1x") demo_world
     = Return false).
Proof.
  split; [split; [exact demo_carol_absent|] |
          split; [exact demo_alice_first | split]].
  - exact (proj1 (@valid_login_spec demo_bcrypt "c@x.com" "p1" demo_world)
             demo_carol_absent).
  - exact (proj1 (proj2 (@valid_login_spec demo_bcrypt "a@x.com" "p1"
             demo_world)) 0%nat demo_alice demo_alice_first).
  - exact (proj1 (proj2 (@valid_login_spec demo_bcrypt "a@x.com" "p1x"
             demo_world)) 0%nat demo_alice demo_alice_first).
Defined.

Lemma create_session_spec_witness :
  let t1 := "01234567-89ab-4def-8123-456789abcdef" in
  let t2 := "02468acf-1357-4bde-8246-8acf13579bde" in
  (no_match (ByEmail "c@x.com") (users demo_world) /\
   outcome (create_session "c@x.com") demo_world = Return None) /\
  (first_match (ByEmail "a@x.com") (users demo_world) 0 demo_alice /\
   outcome (create_session "a@x.com") demo_world = Return (Some t1)) /\
  (Exists (matches (ByEmail "a@x.com")) (users demo_world) /\
   no_match (BySessionId (Some t1)) (users demo_world) /\
   t2 <> t1 /\
   outcome (create_session "a@x.com" ;;; create_session "a@x.com" ;;;
            get_user_from_session_id (Some t1)) demo_world = Return None).
Proof.
  intros t1 t2.
  assert (Hfresh : no_match (BySessionId (Some t1)) (users demo_world))
    by (repeat constructor; discriminate).
  assert (Hne : t2 <> t1) by discriminate.
  split; [split; [exact demo_carol_absent|] |
          split; [split; [exact demo_alice_first|] |
                  split; [exact demo_alice_registered |
                          split; [exact Hfresh | split; [exact Hne|]]]]].
  - exact (proj1 (proj1 (create_session_spec "c@x.com" demo_world)
             demo_carol_absent)).
  - exact (proj1 (proj1 (proj2 (create_session_spec "a@x.com" demo_world))
             0%nat demo_alice demo_alice_first)).
  - exact (proj2 (proj2 (create_session_spec "a@x.com" demo_world))
             demo_alice_registered Hfresh Hne).
Defined.

Lemma get_user_from_session_id_spec_witness :
  let s := "11111111-1111-4111-8111-111111111111" in
  get_user_from_session_id None demo_world = (Return None, demo_world) /\
  get_user_from_session_id (Some "") demo_world
    = (Return None, demo_world) /\
  (first_match (BySessionId (Some s)) (users demo_world) 0 demo_alice /\
   outcome (get_user_from_session_id (Some s)) demo_world
     = Return (Some (mkUser 1 "a@x.com" "$2b$12$cdefp1" (Some s)
                 (Some "22222222-2222-4222-8222-222222222222")))) /\
  (no_match (BySessionId (Some "no-such-session")) (users demo_world) /\
   outcome (get_user_from_session_id (Some "no-such-session")) demo_world
     = Return None).
Proof.
  intros s.
  assert (Hf : first_match (BySessionId (Some s)) (users demo_world) 0
                 demo_alice).
  { split; [reflexivity|]. split; [reflexivity|]. intros j y _ Hj. lia. }
  assert (Hn : no_match (BySessionId (Some "no-such-session"))
                 (users demo_world))
    by (repeat constructor; discriminate).
  split; [|split; [|split; [split; [exact Hf|] | split; [exact Hn|]]]].
  - exact (proj1 (get_user_from_session_id_spec None demo_world)
             (or_introl eq_refl)).
  - exact (proj1 (get_user_from_session_id_spec (Some "") demo_world)
             (or_intror eq_refl)).
  - refine (proj1 (proj2 (proj1 (proj2
             (get_user_from_session_id_spec (Some s) demo_world))
             s eq_refl _)) 0%nat demo_alice Hf).
    discriminate.
  - refine (proj1 (proj1 (proj2
             (get_user_from_session_id_spec (Some "no-such-session")
                demo_world)) "no-such-session" eq_refl _) Hn).
    discriminate.
Defined.

Lemma destroy_session_spec_witness :
  (get_row 1 (users demo_world) = Some demo_alice /\
   get_row 1 (users (after (destroy_session 1) demo_world))
     = Some (mkRow "a@x.com" "$2b$12$cdefp1" None
                   (Some "22222222-2222-4222-8222-222222222222"))) /\
  (get_row 7 (users demo_world) = None /\
   outcome (destroy_session 7) demo_world = Return tt /\
   users (after (destroy_session 7) demo_world) = users demo_world) /\
  (2 <> 1 /\
   get_row 2 (users (after (destroy_session 1) demo_world))
     = Some demo_bob).
Proof.
  split; [split; [reflexivity|] |
          split; [split; [reflexivity | split] | split; [lia|]]].
  - exact (proj1 (proj2 (destroy_session_spec 1 demo_world))
             demo_alice eq_refl).
  - exact (proj1 (destroy_session_spec 7 demo_world)).
  - exact (proj1 (proj2 (proj2 (destroy_session_spec 7 demo_world)))
             eq_refl).
  - refine (proj1 (proj2 (proj2 (proj2 (destroy_session_spec 1
             demo_world)))) 2 _). lia.
Defined.

Lemma get_reset_password_token_spec_witness :
  (no_match (ByEmail "c@x.com") (users demo_world) /\
   outcome (get_reset_password_token "c@x.com") demo_world
     = Raise (ValueError "User c@x.com does not exist") /\
   drawn (after (get_reset_password_token "c@x.com") demo_world) = 0%nat) /\
  (first_match (ByEmail "a@x.com") (users demo_world) 0 demo_alice /\
   outcome (get_reset_password_token "a@x.com") demo_world
     = Return "01234567-89ab-4def-8123-456789abcdef" /\
   get_row 1 (users (after (get_reset_password_token "a@x.com")
                           demo_world))
     = Some (mkRow "a@x.com" "$2b$12$cdefp1"
               (Some "11111111-1111-4111-8111-111111111111")
               (Some "01234567-89ab-4def-8123-456789abcdef")) /\
   drawn (after (get_reset_password_token "a@x.com") demo_world) = 1%nat /\
   outcome (get_reset_password_token "a@x.com" ;;;
            get_reset_password_token "a@x.com") demo_world
     = Return "02468acf-1357-4bde-8246-8acf13579bde" /\
   get_row 1 (users (after (get_reset_password_token "a@x.com" ;;;
                            get_reset_password_token "a@x.com")
                           demo_world))
     = Some (mkRow "a@x.com" "$2b$12$cdefp1"
               (Some "11111111-1111-4111-8111-111111111111")
               (Some "02468acf-1357-4bde-8246-8acf13579bde"))).
Proof.
  pose proof (proj1 (get_reset_password_token_spec "c@x.com" demo_world)
                demo_carol_absent) as (Ha & _ & Hd).
  pose proof (proj2 (get_reset_password_token_spec "a@x.com" demo_world)
                0%nat demo_alice demo_alice_first)
    as (H1 & H2 & _ & H3 & _ & H4 & H5 & _).
  split; [split; [exact demo_carol_absent | split; [exact Ha | exact Hd]]|].
  split; [exact demo_alice_first|].
  split; [exact H1|]. split; [exact H2|]. split; [exact H3|].
  split; [exact H4 | exact H5].
Defined.

Lemma update_password_invalid_token_witness :
  no_match (ByResetToken "33333333-3333-4333-8333-333333333333")
           (users demo_world) /\
  outcome (@update_password demo_bcrypt
             "33333333-3333-4333-8333-333333333333" "p9") demo_world
    = Raise (ValueError "Invalid reset token") /\
  users (after (@update_password demo_bcrypt
                  "33333333-3333-4333-8333-333333333333" "p9") demo_world)
    = users demo_world.
Proof.
  assert (Hn : no_match
                 (ByResetToken "33333333-3333-4333-8333-333333333333")
                 (users demo_world))
    by (repeat constructor; discriminate).
  split; [exact Hn|].
  exact (@update_password_invalid_token demo_bcrypt
           "33333333-3333-4333-8333-333333333333" "p9" demo_world Hn).
Defined.

Lemma generate_uuid_value_space_witness :
  let r := demo_entropy 0 in
  (0 <= r < 2 ^ 128 /\
   UUID_version4 r = 0x0123456789ab4def8123456789abcdef /\
   UUID_version4 r = place_bits (random_bits r)) /\
  (0 <= 5 < 2 ^ 122 /\ 0 <= 6 < 2 ^ 122 /\
   UUID_version4 (place_bits 5) = place_bits 5 /\
   (UUID_str (place_bits 5) = UUID_str (place_bits 6) -> 5 = 6)) /\
  (outcome (create_session "a@x.com") demo_world
     = Return (Some "01234567-89ab-4def-8123-456789abcdef") /\
   "01234567-89ab-4def-8123-456789abcdef" = token_at demo_world 0) /\
  (outcome (get_reset_password_token "a@x.com") demo_world
     = Return "01234567-89ab-4def-8123-456789abcdef" /\
   "01234567-89ab-4def-8123-456789abcdef" = token_at demo_world 0).
Proof.
  intros r.
  assert (Hr : 0 <= r < 2 ^ 128) by (split; (discriminate || reflexivity)).
  assert (H5 : 0 <= 5 < 2 ^ 122) by (split; (discriminate || reflexivity)).
  assert (H6 : 0 <= 6 < 2 ^ 122) by (split; (discriminate || reflexivity)).
  destruct generate_uuid_value_space as (_ & Hs & Ht & Hv & Hp & Hi).
  split; [split; [exact Hr | split; [reflexivity|]] |
          split; [split; [exact H5 | split; [exact H6 | split]] | split]].
  - exact (proj1 (proj2 (proj2 (proj2 (Hv r Hr))))).
  - exact (proj2 (Hp 5 H5)).
  - exact (Hi 5 6 H5 H6).
  - split; [reflexivity|].
    exact (Hs "a@x.com" demo_world _ eq_refl).
  - split; [reflexivity|].
    exact (Ht "a@x.com" demo_world _ eq_refl).
Defined.

(** ** How the methods compose *)

Lemma match_or_not c l : (exists i r, first_match c l i r) \/ no_match c l.
Proof.
  destruct (list_find (matches c) l) as [[i r]|] eqn:E.
  - left. exists i, r. exact (proj1 (list_find_Some (matches c) l i r) E).
  - right. exact (proj1 (list_find_None (matches c) l) E).
Qed.

Lemma first_match_Exists c l i r :
  first_match c l i r -> Exists (matches c) l.
Proof.
  intros (Hl & Hm & _). apply Exists_exists. exists r.
  split; [|exact Hm].
  eapply list_elem_of_lookup_2, Hl.
Qed.

Lemma token_truthy w n : truthy (Some (token_at w n)) = true.
Proof. reflexivity. Qed.

Lemma get_user_from_session_id_first s w i r :
  s <> "" ->
  first_match (BySessionId (Some s)) (users w) i r ->
  outcome (get_user_from_session_id (Some s)) w
    = Return (Some (user_of_row i r)).
Proof.
  intros Hs Hf. unfold get_user_from_session_id.
  assert (Ht : negb (truthy (Some s)) = false).
  { simpl. destruct s; [congruence | reflexivity]. }
  rewrite Ht. run_auth. now rewrite (find_user_by_first _ _ _ _ Hf).
Qed.

Lemma token_nonempty w n : token_at w n <> "".
Proof. discriminate. Qed.

(** X2: a session token just created resolves to the record it was
    created for, provided no record held that token before. *)
Theorem create_session_then_resolve email w i r :
  first_match (ByEmail email) (users w) i r ->
  no_match (BySessionId (Some (token_at w (drawn w)))) (users w) ->
  outcome (t <- create_session email ;; get_user_from_session_id t) w
    = Return (Some (mkUser (Z.of_nat i + 1) (row_email r)
                           (row_hashed_password r)
                           (Some (token_at w (drawn w)))
                           (row_reset_token r))).
Proof.
  intros Hf Hfresh. unfold outcome, bind at 1.
  rewrite (create_session_found _ _ _ _ Hf).
  set (t := token_at w (drawn w)) in *.
  set (r1 := apply_fields [SetSessionId (Some t)] r).
  apply (get_user_from_session_id_first t _ i r1);
    [apply token_nonempty|].
  destruct Hf as (Hl & _ & _). cbn [users]. repeat split.
  - apply list_lookup_insert_eq. now apply lookup_lt_Some in Hl.
  - intros j y Hj Hlt. rewrite list_lookup_insert_ne in Hj by lia.
    eapply Forall_lookup_1 in Hfresh; eauto.
Qed.

(** X3: after [destroy_session] for the record, the session token created
    before no longer resolves to any record. *)
Theorem create_session_destroy_then_resolve email w i r :
  first_match (ByEmail email) (users w) i r ->
  no_match (BySessionId (Some (token_at w (drawn w)))) (users w) ->
  outcome (t <- create_session email ;;
           destroy_session (Z.of_nat i + 1) ;;;
           get_user_from_session_id t) w
    = Return None.
Proof.
  intros Hf Hfresh. unfold outcome, bind at 1.
  rewrite (create_session_found _ _ _ _ Hf).
  set (t := token_at w (drawn w)) in *.
  set (r1 := apply_fields [SetSessionId (Some t)] r).
  destruct Hf as (Hl & _ & _).
  unfold bind, destroy_session, DB.update_user. cbn [users set_users emit].
  apply (get_user_from_session_id_unknown t). cbn [users].
  assert (Hl1 : <[i:=r1]> (users w) !! i = Some r1).
  { apply list_lookup_insert_eq. now apply lookup_lt_Some in Hl. }
  rewrite (write_row_at i _ _ r1 Hl1), list_insert_insert_eq.
  apply Forall_lookup. intros j y Hj. cbn [users set_users] in Hj.
  destruct (decide (j = i)) as [->|Hji].
  - rewrite list_lookup_insert_eq in Hj by (now apply lookup_lt_Some in Hl).
    injection Hj as <-. simpl. discriminate.
  - rewrite list_lookup_insert_ne in Hj by congruence.
    eapply Forall_lookup_1 in Hfresh; eauto.
Qed.

(** X4: [destroy_session] for one record leaves the session of every
    other record resolvable as before. *)
Theorem destroy_session_other_user s w i r user_id :
  s <> "" ->
  first_match (BySessionId (Some s)) (users w) i r ->
  user_id <> Z.of_nat i + 1 ->
  outcome (destroy_session user_id ;;; get_user_from_session_id (Some s)) w
    = Return (Some (user_of_row i r)).
Proof.
  intros Hs (Hl & Hm & Hleast) Hne.
  unfold outcome, bind at 1, destroy_session, DB.update_user.
  apply (get_user_from_session_id_first s _ i r Hs). cbn [users set_users].
  assert (Hi : get_row (Z.of_nat i + 1) (users w) = Some r)
    by (unfold get_row; now rewrite row_index_of_nat).
  repeat split.
  - rewrite <- Hi. rewrite <- (get_row_write_ne user_id (Z.of_nat i + 1)
      [SetSessionId None] (users w) Hne).
    unfold get_row. now rewrite row_index_of_nat.
  - exact Hm.
  - intros j y Hj Hlt. unfold write_row in Hj.
    destruct (row_index user_id) as [k|]; [|eauto].
    destruct (users w !! k) as [rk|] eqn:Hk; [|eauto].
    destruct (decide (j = k)) as [->|Hjk].
    + rewrite list_lookup_insert_eq in Hj
        by (now apply lookup_lt_Some in Hk).
      injection Hj as <-. simpl. discriminate.
    + rewrite list_lookup_insert_ne in Hj by congruence. eauto.
Qed.

Lemma credentials_write_row uid kw l :
  (forall r, credential (apply_fields kw r) = credential r) ->
  credentials (write_row uid kw l) = credentials l.
Proof.
  intros Hkw. unfold write_row, credentials.
  destruct (row_index uid) as [i|]; [|reflexivity].
  destruct (l !! i) as [r|] eqn:Hl; [|reflexivity].
  rewrite list_fmap_insert, Hkw. apply list_insert_id.
  now rewrite list_lookup_fmap, Hl.
Qed.

Lemma find_user_by_users c w : users (snd (DB.find_user_by c w)) = users w.
Proof.
  unfold DB.find_user_by. now destruct (list_find _ _) as [[i r]|].
Qed.

Section AuthCompose.

Context `{Bcrypt}.

Lemma valid_login_by_credentials email password w :
  outcome (valid_login email password) w =
    match list_find (fun c => c.1 = email) (credentials (users w)) with
    | Some (_, c) => Return (checkpw (encode password) c.2)
    | None => Return false
    end.
Proof.
  unfold credentials. rewrite list_find_fmap.
  unfold valid_login, DB.find_user_by. run_auth.
  change ((fun c : string * bytes => c.1 = email) ∘ credential)
    with (matches (ByEmail email)).
  now destruct (list_find (matches (ByEmail email)) (users w)) as [[i r]|].
Qed.

(** X1: a login right after the registration of a new email checks the
    password against the digest made at registration. *)
Theorem register_user_then_valid_login email password password' w :
  no_match (ByEmail email) (users w) ->
  outcome (register_user email password ;;;
           valid_login email password') w
    = Return (checkpw (encode password')
                (hashpw (encode password)
                   (salt_of (entropy w (drawn w) mod 2 ^ 128)))).
Proof.
  intros Hn. unfold outcome, bind at 1.
  rewrite (register_user_free _ _ _ Hn). cbv zeta.
  set (digest := hashpw _ _). set (w1 := mkWorld _ _ _ _).
  assert (Hf : first_match (ByEmail email) (users w1)
                 (length (users w)) (mkRow email digest None None)).
  { subst w1. cbn [users]. repeat split.
    - rewrite lookup_app_r by lia. now rewrite Nat.sub_diag.
    - intros j y Hj Hlt. rewrite lookup_app_l in Hj by lia.
      eapply Forall_lookup_1 in Hn; eauto. }
  unfold valid_login. run_auth.
  now rewrite (find_user_by_first _ _ _ _ Hf).
Qed.

(** X5: once a second reset token is issued for an email, the first one
    is no token of any record: [update_password] with it raises the
    invalid-token error. *)
Theorem second_reset_token_invalidates_first email password w :
  Exists (matches (ByEmail email)) (users w) ->
  no_match (ByResetToken (token_at w (drawn w))) (users w) ->
  token_at w (S (drawn w)) <> token_at w (drawn w) ->
  outcome (t1 <- get_reset_password_token email ;;
           get_reset_password_token email ;;;
           update_password t1 password) w
    = Raise (ValueError "Invalid reset token").
Proof.
  intros He Hfresh Hne.
  destruct (Exists_first_match _ _ He) as (i & r & Hf).
  unfold outcome, bind at 1.
  rewrite (get_reset_password_token_found _ _ _ _ Hf).
  set (t1 := token_at w (drawn w)) in *.
  set (r1 := apply_fields [SetResetToken (Some t1)] r).
  set (w1 := mkWorld _ _ _ _).
  pose proof (first_match_email_write email (users w) i r
                [SetResetToken (Some t1)] Hf) as Hf1.
  fold r1 in Hf1. unfold bind at 1.
  rewrite (get_reset_password_token_found email w1 i r1 Hf1).
  unfold token_at at 1 2. cbn [entropy drawn w1 users].
  fold (token_at w (S (drawn w))).
  set (t2 := token_at w (S (drawn w))) in *.
  rewrite list_insert_insert_eq.
  unfold update_password. run_auth.
  rewrite find_user_by_none; [reflexivity|]. cbn [users].
  apply Forall_lookup. intros j y Hj.
  destruct (decide (j = i)) as [->|Hji].
  - rewrite list_lookup_insert_eq in Hj
      by (destruct Hf as (Hl & _); now apply lookup_lt_Some in Hl).
    injection Hj as <-. simpl. congruence.
  - rewrite list_lookup_insert_ne in Hj by congruence.
    eapply Forall_lookup_1 in Hfresh; eauto.
Qed.

(** X6: [update_password] never changes the users table. It looks the
    token up first. When no record holds it, the invalid-token error is
    raised with nothing hashed and nothing drawn. When a record holds it,
    the password is hashed with a salt drawn for it and then the call
    [self._db.update_user()], made without a user id, raises [TypeError]:
    no update reaches the store. *)
Theorem update_password_never_writes reset_token password w :
  let w' := after (update_password reset_token password) w in
  users w' = users w /\
  (no_match (ByResetToken reset_token) (users w) ->
     outcome (update_password reset_token password) w
       = Raise (ValueError "Invalid reset token") /\
     drawn w' = drawn w /\
     log w' = log w ++ [DbFind (ByResetToken reset_token)]) /\
  (Exists (matches (ByResetToken reset_token)) (users w) ->
     (exists msg,
        outcome (update_password reset_token password) w
          = Raise (TypeError msg)) /\
     drawn w' = S (drawn w) /\
     log w' = log w ++ [DbFind (ByResetToken reset_token);
                        Hashpw (encode password)]).
Proof.
  cbv zeta. split; [|split].
  - unfold update_password, DB.find_user_by. run_auth.
    now destruct (list_find _ _) as [[i r]|].
  - intros Hn. unfold update_password. run_auth.
    now rewrite (find_user_by_none _ _ Hn).
  - intros He. destruct (Exists_first_match _ _ He) as (i & r & Hf).
    unfold update_password. run_auth.
    rewrite (find_user_by_first _ _ _ _ Hf). simpl.
    split; [eauto|]. split; [reflexivity|].
    now rewrite <- app_assoc.
Qed.

(** X7: no method other than [register_user] changes the number of
    records, an email or a password digest: the credentials in the table
    are the same after [valid_login], [create_session],
    [get_user_from_session_id], [destroy_session] and
    [get_reset_password_token]. *)
Theorem credentials_preserved w :
  (forall email password,
     credentials (users (after (valid_login email password) w))
       = credentials (users w)) /\
  (forall email,
     credentials (users (after (create_session email) w))
       = credentials (users w)) /\
  (forall session_id,
     credentials (users (after (get_user_from_session_id session_id) w))
       = credentials (users w)) /\
  (forall user_id,
     credentials (users (after (destroy_session user_id) w))
       = credentials (users w)) /\
  (forall email,
     credentials (users (after (get_reset_password_token email) w))
       = credentials (users w)).
Proof.
  repeat split.
  - intros email password. unfold valid_login, DB.find_user_by. run_auth.
    now destruct (list_find _ _) as [[i r]|].
  - intros email. unfold create_session, DB.find_user_by. run_auth.
    destruct (list_find _ _) as [[i r]|]; [|reflexivity].
    cbn [fst snd users set_users]. now apply credentials_write_row.
  - intros session_id. unfold get_user_from_session_id.
    destruct (negb (truthy session_id)); [reflexivity|].
    unfold DB.find_user_by. run_auth.
    now destruct (list_find _ _) as [[i r]|].
  - intros user_id. unfold destroy_session, DB.update_user. run_auth.
    now apply credentials_write_row.
  - intros email. unfold get_reset_password_token, DB.find_user_by.
    run_auth. destruct (list_find _ _) as [[i r]|]; [|reflexivity].
    cbn [fst snd users set_users]. now apply credentials_write_row.
Qed.

Lemma create_session_returns email w :
  exists t, create_session email w
            = (Return t, after (create_session email) w).
Proof.
  unfold after, create_session, DB.find_user_by. run_auth.
  destruct (list_find _ _) as [[i r]|]; simpl; eauto.
Qed.

Lemma create_session_credentials email w :
  credentials (users (after (create_session email) w))
    = credentials (users w).
Proof.
  unfold create_session, DB.find_user_by. run_auth.
  destruct (list_find _ _) as [[i r]|]; [|reflexivity].
  cbn [fst snd users set_users]. now apply credentials_write_row.
Qed.

(** X8: the result of a login is the same whether or not a session was
    created or destroyed just before, for any email or user id. *)
Theorem valid_login_after_session_change email password w :
  (forall email',
     outcome (create_session email' ;;; valid_login email password) w
       = outcome (valid_login email password) w) /\
  (forall user_id,
     outcome (destroy_session user_id ;;; valid_login email password) w
       = outcome (valid_login email password) w).
Proof.
  split.
  - intros email'. unfold outcome at 1, bind.
    destruct (create_session_returns email' w) as [t ->].
    fold (outcome (valid_login email password)
            (after (create_session email') w)).
    rewrite !valid_login_by_credentials.
    now rewrite create_session_credentials.
  - intros user_id. unfold outcome at 1, bind, destroy_session,
      DB.update_user.
    match goal with
    | |- fst (valid_login _ _ ?w1) = _ =>
        fold (outcome (valid_login email password) w1)
    end.
    rewrite !valid_login_by_credentials. cbn [users set_users].
    now rewrite credentials_write_row.
Qed.

(** X9: [register_user] keeps the emails of the table pairwise distinct,
    whether it succeeds or raises. *)
Theorem register_user_keeps_emails_unique email password w :
  NoDup (row_email <$> users w) ->
  NoDup (row_email <$> users (after (register_user email password) w)).
Proof.
  intros Hnd. unfold after.
  destruct (match_or_not (ByEmail email) (users w))
    as [(i & r & Hf) | Hn].
  - rewrite register_user_taken; [exact Hnd|].
    eapply first_match_Exists, Hf.
  - rewrite (register_user_free _ _ _ Hn). cbn [snd users].
    rewrite fmap_app. apply NoDup_app. split; [exact Hnd|].
    split; [|apply NoDup_singleton].
    intros x Hx Hin. apply list_elem_of_fmap in Hx as (y & -> & Hy).
    apply list_elem_of_singleton in Hin. simpl in Hin.
    unfold no_match in Hn. rewrite Forall_forall in Hn.
    now apply (Hn y).
Qed.

(** X10: two registrations of different new emails append two records in
    order, with consecutive ids and each digest made with its own salt. *)
Theorem register_two_users e1 p1 e2 p2 w :
  no_match (ByEmail e1) (users w) ->
  no_match (ByEmail e2) (users w) ->
  e1 <> e2 ->
  let d1 := hashpw (encode p1)
              (salt_of (entropy w (drawn w) mod 2 ^ 128)) in
  let d2 := hashpw (encode p2)
              (salt_of (entropy w (S (drawn w)) mod 2 ^ 128)) in
  let both := (register_user e1 p1 ;;; register_user e2 p2) in
  outcome both w
    = Return (mkUser (Z.of_nat (length (users w)) + 2) e2 d2 None None) /\
  users (after both w)
    = users w ++ [mkRow e1 d1 None None; mkRow e2 d2 None None].
Proof.
  intros Hn1 Hn2 Hne d1 d2 both. subst both. unfold outcome, after, bind.
  rewrite (register_user_free _ _ _ Hn1). cbv zeta. fold d1.
  set (w1 := mkWorld _ _ _ _).
  assert (Hn2' : no_match (ByEmail e2) (users w1)).
  { subst w1. cbn [users]. apply Forall_app. split; [exact Hn2|].
    repeat constructor. simpl. congruence. }
  rewrite (register_user_free _ _ _ Hn2'). cbv zeta.
  subst w1. cbn [fst snd users entropy drawn]. fold d2.
  rewrite length_app, <- app_assoc. simpl. split; [|reflexivity].
  do 2 f_equal. lia.
Qed.

(** X13: every method of [Auth] that looks a record up handles the
    store's not-found signal: whatever the input and the state,
    [NoResultFound] leaves none of [register_user], [valid_login],
    [create_session], [get_user_from_session_id],
    [get_reset_password_token] and [update_password]. *)
Theorem NoResultFound_never_escapes w :
  (forall email password,
     outcome (register_user email password) w <> Raise NoResultFound) /\
  (forall email password,
     outcome (valid_login email password) w <> Raise NoResultFound) /\
  (forall email,
     outcome (create_session email) w <> Raise NoResultFound) /\
  (forall session_id,
     outcome (get_user_from_session_id session_id) w
       <> Raise NoResultFound) /\
  (forall email,
     outcome (get_reset_password_token email) w <> Raise NoResultFound) /\
  (forall reset_token password,
     outcome (update_password reset_token password) w
       <> Raise NoResultFound).
Proof.
  repeat split.
  - intros email password. unfold register_user, DB.find_user_by.
    run_auth. now destruct (list_find _ _) as [[i r]|].
  - intros email password. unfold valid_login, DB.find_user_by. run_auth.
    now destruct (list_find _ _) as [[i r]|].
  - intros email. unfold create_session, DB.find_user_by. run_auth.
    now destruct (list_find _ _) as [[i r]|].
  - intros session_id. unfold get_user_from_session_id.
    destruct (negb (truthy session_id)); [discriminate|].
    unfold DB.find_user_by. run_auth.
    now destruct (list_find _ _) as [[i r]|].
  - intros email. unfold get_reset_password_token, DB.find_user_by.
    run_auth. now destruct (list_find _ _) as [[i r]|].
  - intros reset_token password. unfold update_password, DB.find_user_by.
    run_auth. now destruct (list_find _ _) as [[i r]|].
Qed.

End AuthCompose.

(** ** The shape of a token *)

Lemma string_length_append a b :
  String.length (a +:+ b) = (String.length a + String.length b)%nat.
Proof. induction a as [|c a IH]; simpl; [reflexivity | now rewrite IH]. Qed.

Lemma hex_length n x : String.length (hex n x) = n.
Proof.
  revert x. induction n as [|k IH]; intros x; [reflexivity|].
  simpl. rewrite string_length_append, IH. simpl. lia.
Qed.

Lemma hex_get n x i :
  (i < n)%nat ->
  String.get i (hex n x)
    = Some (hexdigit ((x / 16 ^ Z.of_nat (n - 1 - i)) mod 16)).
Proof.
  revert x i. induction n as [|k IH]; intros x i Hi; [lia|].
  simpl hex. destruct (decide (i = k)) as [->|Hik].
  - replace (S k - 1 - k)%nat with 0%nat by lia.
    rewrite <- (hex_length k (x / 16)) at 1.
    rewrite <- (String.append_correct2 (hex k (x / 16)) _ 0).
    simpl. now rewrite Z.div_1_r.
  - rewrite <- String.append_correct1 by (rewrite hex_length; lia).
    rewrite IH by lia. do 3 f_equal.
    replace (S k - 1 - i)%nat with (S (k - 1 - i)) by lia.
    rewrite Nat2Z.inj_succ, Z.pow_succ_r by lia.
    rewrite Z.div_div by lia. reflexivity.
Qed.

Lemma UUID_version4_version_digit r : (UUID_version4 r / 16 ^ 19) mod 16 = 4.
Proof.
  change (16 ^ 19) with (2 ^ 76). change 16 with (2 ^ 4).
  rewrite <- Z.shiftr_div_pow2, <- Z.land_ones by lia.
  change 4 with (2 ^ 2) at 2.
  apply Z.bits_inj'. intros n Hn.
  rewrite Z.land_spec, Z.shiftr_spec, UUID_version4_bit by lia.
  unfold fixed_bit, fixed_value.
  assert (n = 0 \/ n = 1 \/ n = 2 \/ n = 3 \/ 4 <= n) as Hc by lia.
  destruct Hc as [?|[?|[?|[?|?]]]]; bits.
Qed.

Lemma UUID_version4_variant_digit r :
  8 <= (UUID_version4 r / 16 ^ 15) mod 16 <= 11.
Proof.
  change (16 ^ 15) with (2 ^ 60). change 16 with (2 ^ 4).
  rewrite <- Z.shiftr_div_pow2, <- Z.land_ones by lia.
  assert (E : Z.land (Z.shiftr (UUID_version4 r) 60) (Z.ones 4)
              = Z.lor (2 ^ 3) (Z.land (Z.shiftr r 60) (Z.ones 2))).
  { apply Z.bits_inj'. intros n Hn.
    rewrite Z.lor_spec, !Z.land_spec, !Z.shiftr_spec, UUID_version4_bit
      by lia.
    unfold fixed_bit, fixed_value.
    assert (n = 0 \/ n = 1 \/ n = 2 \/ n = 3 \/ 4 <= n) as Hc by lia.
    destruct Hc as [?|[?|[?|[?|?]]]]; bits. }
  rewrite E. rewrite Z.land_ones by lia.
  pose proof (Z.mod_pos_bound (Z.shiftr r 60) (2 ^ 2) ltac:(lia)) as Hb.
  set (x := Z.shiftr r 60 mod 2 ^ 2) in *.
  assert (Hx : x = 0 \/ x = 1 \/ x = 2 \/ x = 3) by lia.
  destruct Hx as [-> | [-> | [-> | ->]]]; vm_compute; split; discriminate.
Qed.

(** X11: every token has 36 characters, with dashes after the groups of
    8, 4, 4 and 4 hexadecimal digits, the version digit 4 and a variant
    digit among 8, 9, a and b; in particular it is never empty. *)
Theorem token_format w n :
  let t := token_at w n in
  String.length t = 36%nat /\
  String.get 8 t = Some "-"%char /\ String.get 13 t = Some "-"%char /\
  String.get 18 t = Some "-"%char /\ String.get 23 t = Some "-"%char /\
  String.get 14 t = Some "4"%char /\
  (String.get 19 t = Some "8"%char \/ String.get 19 t = Some "9"%char \/
   String.get 19 t = Some "a"%char \/ String.get 19 t = Some "b"%char) /\
  truthy (Some t) = true.
Proof.
  intros t. subst t. unfold token_at.
  set (v := UUID_version4 _).
  split; [reflexivity|]. do 4 (split; [reflexivity|]).
  split; [|split; [|reflexivity]].
  - change (String.get 14 (UUID_str v)) with (String.get 12 (hex 32 v)).
    rewrite hex_get by lia. subst v.
    change (Z.of_nat (32 - 1 - 12)) with 19.
    now rewrite UUID_version4_version_digit.
  - change (String.get 19 (UUID_str v)) with (String.get 16 (hex 32 v)).
    rewrite hex_get by lia. subst v.
    change (Z.of_nat (32 - 1 - 16)) with 15.
    pose proof (UUID_version4_variant_digit
                  (entropy w n mod 2 ^ 128)) as Hd.
    set (d := (_ / _) mod 16) in *.
    assert (Hx : d = 8 \/ d = 9 \/ d = 10 \/ d = 11) by lia.
    destruct Hx as [-> | [-> | [-> | ->]]]; auto.
Qed.

(** X12: two draws give the same token exactly when their 122 bits
    outside the version and variant fields agree. *)
Theorem token_collision w n m :
  token_at w n = token_at w m <->
  random_bits (entropy w n mod 2 ^ 128)
    = random_bits (entropy w m mod 2 ^ 128).
Proof.
  unfold token_at.
  assert (Hr : forall k, 0 <= entropy w k mod 2 ^ 128 < 2 ^ 128)
    by (intros k; apply Z.mod_pos_bound; lia).
  split.
  - intros E. apply UUID_str_inj in E; try apply UUID_version4_range, Hr.
    rewrite !UUID_version4_place_random in E.
    apply (f_equal random_bits) in E.
    now rewrite !random_place_bits in E by apply random_bits_range, Hr.
  - intros E. now rewrite !UUID_version4_place_random, E.
Qed.

(** ** The compositions at work on the demo instance *)

Ltac demo_no_match :=
  repeat constructor; intros E; vm_compute in E; discriminate E.

Lemma demo_token_fresh_session :
  no_match (BySessionId (Some (token_at demo_world (drawn demo_world))))
           (users demo_world).
Proof. demo_no_match. Defined.

Lemma register_user_then_valid_login_witness :
  no_match (ByEmail "c@x.com") (users demo_world) /\
  outcome (@register_user demo_bcrypt "c@x.com" "pw" ;;;
           @valid_login demo_bcrypt "c@x.com" "pw") demo_world
    = Return true /\
  outcome (@register_user demo_bcrypt "c@x.com" "pw" ;;;
           @valid_login demo_bcrypt "c@x.com" "pwx") demo_world
    = Return false.
Proof.
  split; [exact demo_carol_absent|]. split.
  - exact (@register_user_then_valid_login demo_bcrypt "c@x.com" "pw" "pw"
             demo_world demo_carol_absent).
  - exact (@register_user_then_valid_login demo_bcrypt "c@x.com" "pw" "pwx"
             demo_world demo_carol_absent).
Defined.

Lemma create_session_then_resolve_witness :
  first_match (ByEmail "a@x.com") (users demo_world) 0 demo_alice /\
  no_match (BySessionId (Some (token_at demo_world (drawn demo_world))))
           (users demo_world) /\
  outcome (t <- create_session "a@x.com" ;; get_user_from_session_id t)
          demo_world
    = Return (Some (mkUser 1 "a@x.com" "$2b$12$cdefp1"
                (Some "01234567-89ab-4def-8123-456789abcdef")
                (Some "22222222-2222-4222-8222-222222222222"))).
Proof.
  split; [exact demo_alice_first|].
  split; [exact demo_token_fresh_session|].
  exact (create_session_then_resolve "a@x.com" demo_world 0 demo_alice
           demo_alice_first demo_token_fresh_session).
Defined.

Lemma create_session_destroy_then_resolve_witness :
  first_match (ByEmail "a@x.com") (users demo_world) 0 demo_alice /\
  no_match (BySessionId (Some (token_at demo_world (drawn demo_world))))
           (users demo_world) /\
  outcome (t <- create_session "a@x.com" ;;
           destroy_session 1 ;;;
           get_user_from_session_id t) demo_world
    = Return None.
Proof.
  split; [exact demo_alice_first|].
  split; [exact demo_token_fresh_session|].
  exact (create_session_destroy_then_resolve "a@x.com" demo_world 0
           demo_alice demo_alice_first demo_token_fresh_session).
Defined.

Lemma destroy_session_other_user_witness :
  let s := "11111111-1111-4111-8111-111111111111" in
  s <> "" /\
  first_match (BySessionId (Some s)) (users demo_world) 0 demo_alice /\
  2 <> Z.of_nat 0 + 1 /\
  outcome (destroy_session 2 ;;; get_user_from_session_id (Some s))
          demo_world
    = Return (Some (mkUser 1 "a@x.com" "$2b$12$cdefp1" (Some s)
                (Some "22222222-2222-4222-8222-222222222222"))).
Proof.
  intros s.
  assert (Hs : s <> "") by discriminate.
  assert (Hf : first_match (BySessionId (Some s)) (users demo_world) 0
                 demo_alice).
  { split; [reflexivity|]. split; [reflexivity|]. intros j y _ Hj. lia. }
  assert (Hne : 2 <> Z.of_nat 0 + 1) by discriminate.
  split; [exact Hs|]. split; [exact Hf|]. split; [exact Hne|].
  exact (destroy_session_other_user s demo_world 0 demo_alice 2 Hs Hf Hne).
Defined.

Lemma second_reset_token_invalidates_first_witness :
  Exists (matches (ByEmail "a@x.com")) (users demo_world) /\
  no_match (ByResetToken (token_at demo_world (drawn demo_world)))
           (users demo_world) /\
  token_at demo_world (S (drawn demo_world))
    <> token_at demo_world (drawn demo_world) /\
  outcome (t1 <- get_reset_password_token "a@x.com" ;;
           get_reset_password_token "a@x.com" ;;;
           @update_password demo_bcrypt t1 "p2") demo_world
    = Raise (ValueError "Invalid reset token").
Proof.
  assert (Hfresh : no_match
            (ByResetToken (token_at demo_world (drawn demo_world)))
            (users demo_world)) by demo_no_match.
  assert (Hne : token_at demo_world (S (drawn demo_world))
                <> token_at demo_world (drawn demo_world))
    by (intros E; vm_compute in E; discriminate E).
  split; [exact demo_alice_registered|].
  split; [exact Hfresh|]. split; [exact Hne|].
  exact (@second_reset_token_invalidates_first demo_bcrypt "a@x.com" "p2"
           demo_world demo_alice_registered Hfresh Hne).
Defined.

Lemma register_user_keeps_emails_unique_witness :
  NoDup (row_email <$> users demo_world) /\
  NoDup (row_email <$>
           users (after (@register_user demo_bcrypt "c@x.com" "pw")
                        demo_world)) /\
  NoDup (row_email <$>
           users (after (@register_user demo_bcrypt "a@x.com" "pw")
                        demo_world)).
Proof.
  assert (Hnd : NoDup (row_email <$> users demo_world)).
  { apply NoDup_cons. split; [|apply NoDup_singleton].
    intros Hin. apply list_elem_of_singleton in Hin. discriminate Hin. }
  split; [exact Hnd|]. split.
  - exact (@register_user_keeps_emails_unique demo_bcrypt "c@x.com" "pw"
             demo_world Hnd).
  - exact (@register_user_keeps_emails_unique demo_bcrypt "a@x.com" "pw"
             demo_world Hnd).
Defined.

Lemma register_two_users_witness :
  no_match (ByEmail "c@x.com") (users demo_world) /\
  no_match (ByEmail "d@x.com") (users demo_world) /\
  "c@x.com" <> "d@x.com" /\
  users (after (@register_user demo_bcrypt "c@x.com" "pw" ;;;
                @register_user demo_bcrypt "d@x.com" "pw") demo_world)
    = [demo_alice; demo_bob;
       mkRow "c@x.com" "$2b$12$cdefpw" None None;
       mkRow "d@x.com" "$2b$12$9bdepw" None None].
Proof.
  assert (Hd : no_match (ByEmail "d@x.com") (users demo_world))
    by demo_no_match.
  assert (Hne : "c@x.com" <> "d@x.com") by discriminate.
  split; [exact demo_carol_absent|]. split; [exact Hd|].
  split; [exact Hne|].
  exact (proj2 (@register_two_users demo_bcrypt "c@x.com" "pw" "d@x.com"
                  "pw" demo_world demo_carol_absent Hd Hne)).
Defined.

Lemma update_password_never_writes_witness :
  (no_match (ByResetToken "33333333-3333-4333-8333-333333333333")
            (users demo_world) /\
   outcome (@update_password demo_bcrypt
              "33333333-3333-4333-8333-333333333333" "p2") demo_world
     = Raise (ValueError "Invalid reset token") /\
   log (after (@update_password demo_bcrypt
                 "33333333-3333-4333-8333-333333333333" "p2") demo_world)
     = [DbFind (ByResetToken "33333333-3333-4333-8333-333333333333")]) /\
  (Exists (matches (ByResetToken "22222222-2222-4222-8222-222222222222"))
          (users demo_world) /\
   (exists msg,
      outcome (@update_password demo_bcrypt
                 "22222222-2222-4222-8222-222222222222" "p2") demo_world
        = Raise (TypeError msg)) /\
   drawn (after (@update_password demo_bcrypt
                   "22222222-2222-4222-8222-222222222222" "p2") demo_world)
     = 1%nat /\
   users (after (@update_password demo_bcrypt
                   "22222222-2222-4222-8222-222222222222" "p2") demo_world)
     = [demo_alice; demo_bob]).
Proof.
  assert (Hn : no_match
                 (ByResetToken "33333333-3333-4333-8333-333333333333")
                 (users demo_world)) by demo_no_match.
  assert (He : Exists
                 (matches
                    (ByResetToken "22222222-2222-4222-8222-222222222222"))
                 (users demo_world))
    by (apply Exists_cons_hd; reflexivity).
  pose proof (@update_password_never_writes demo_bcrypt
                "33333333-3333-4333-8333-333333333333" "p2" demo_world)
    as (_ & Habsent & _).
  pose proof (@update_password_never_writes demo_bcrypt
                "22222222-2222-4222-8222-222222222222" "p2" demo_world)
    as (Hu & _ & Hheld).
  destruct (Habsent Hn) as (Ho & _ & Hl).
  destruct (Hheld He) as (Hm & Hd & _).
  split; [split; [exact Hn | split; [exact Ho | exact Hl]]|].
  split; [exact He|]. split; [exact Hm|]. split; [exact Hd | exact Hu].
Defined.
